(** * R2-D2 ArcadeLive: the command-frame layer of [r2d2.py]

    A shallow embedding of [src/r2d2.py]: the command dictionary
    [commandmap], the checksum [GenCrc], the framing function
    [BuildPacket] and the body of the control loop of [main], followed by
    the properties of the frame protocol that the specification states.

    Python integers are unbounded, so a byte is a [Z]; a Python list of
    integers is a [list Z]; the dictionary is a [gmap] keyed by strings.
    The control loop mutates the local list [sequences] and talks to the
    BLE device; both are threaded through an explicit state, and an
    exception raised by the interpreter or by the device is a [Raise]
    result. *)

From stdpp Require Import gmap strings list fin_maps.
From Stdlib Require Import ZArith Lia Permutation.

Open Scope Z_scope.

(** ** Python values *)

(** A byte is an integer in [0, 255]. *)
Definition is_byte (b : Z) : Prop := 0 <= b < 256.

(** [dict(items)]: the pairs are inserted from left to right, so a later
    pair with the same key replaces an earlier one. *)
Definition dict {V : Type} (items : list (string * V)) : gmap string V :=
  fold_left (fun d kv => <[kv.1 := kv.2]> d) items ∅.

(** [l[i]] with Python's negative indices counted from the end; [None]
    stands for [IndexError]. *)
Definition py_index {A : Type} (l : list A) (i : Z) : option A :=
  if i <? 0
  then (if 0 <=? Z.of_nat (length l) + i
        then l !! Z.to_nat (Z.of_nat (length l) + i) else None)
  else l !! Z.to_nat i.

(** ** The command dictionary (lines 52-72) *)

Definition commandmap_items : list (string * list Z) :=
  [ ("laugh",     [0x0A;0x18;0x00;0x1F;0x00;0x32;0x00;0x00;0x00;0x00;0x00]);
    ("yes",       [0x0A;0x17;0x05;0x41;0x00;0x0F]);
    ("no",        [0x0A;0x17;0x05;0x3F;0x00;0x10]);
    ("alarm",     [0x0A;0x17;0x05;0x17;0x00;0x07]);
    ("angry",     [0x0A;0x17;0x05;0x18;0x00;0x08]);
    ("annoyed",   [0x0A;0x17;0x05;0x19;0x00;0x09]);
    ("ionblast",  [0x0A;0x17;0x05;0x1A;0x00;0x0E]);
    ("sad",       [0x0A;0x17;0x05;0x1C;0x00;0x11]);
    ("scared",    [0x0A;0x17;0x05;0x1D;0x00;0x13]);
    ("chatty",    [0x0A;0x17;0x05;0x17;0x00;0x0A]);
    ("confident", [0x0A;0x17;0x05;0x18;0x00;0x12]);
    ("excited",   [0x0A;0x17;0x05;0x19;0x00;0x0C]);
    ("happy",     [0x0A;0x17;0x05;0x1A;0x00;0x0D]);
    ("laugh2",    [0x0A;0x17;0x05;0x1B;0x00;0x0F]);
    ("surprise",  [0x0A;0x17;0x05;0x1C;0x00;0x18]);
    ("tripod",    [0x0A;0x17;0x0D;0x1D;0x01]);
    ("bipod",     [0x0A;0x17;0x0D;0x1C;0x02]);
    ("rot+",      [0x8D;0x0A;0x17;0x0F;0x1C;0x42;0xB4;0x00;0x00;0xBD;0xD8]);
    ("rot0",      [0x8D;0x0A;0x17;0x0F;0x1E;0x00;0x00;0x00;0x00;0xB1;0xD8]) ].

Definition commandmap : gmap string (list Z) := dict commandmap_items.

(** ** Checksum and framing (lines 75-95) *)

(** [GenCrc]: the accumulator is reduced modulo 256 after every byte; the
    result is [~ret % 256], where [~] is the complement of an unbounded
    integer and [%] is Python's floored remainder. *)
Definition GenCrc (bytes : list Z) : Z :=
  let ret := 0 in
  let ret := fold_left (fun ret b => (ret + b) mod 256) bytes ret in
  Z.lnot ret mod 256.

(** [BuildPacket]: start marker, the bytes appended one by one, the
    checksum, the end marker. *)
Definition BuildPacket (bytes : list Z) : list Z :=
  let ret := [0x8D] in
  let ret := fold_left (fun ret b => ret ++ [b]) bytes ret in
  let ret := ret ++ [GenCrc bytes] in
  let ret := ret ++ [0xD8] in
  ret.

(** The sum of the bytes of a payload, as the specification words it. *)
Definition byte_sum (bytes : list Z) : Z := fold_right Z.add 0 bytes.

(** ** The control loop of [main] (lines 117-175) *)

(** What a statement can raise: a missing dictionary key, or a failure
    reported by the BLE library on a write. *)
Inductive exn : Type :=
  | KeyError (name : string)
  | WriteError.

Inductive result (A : Type) : Type :=
  | Ok (a : A)
  | Raise (e : exn).

Arguments Ok {A} a.
Arguments Raise {A} e.

(** The §4.4 table of the specification, row by row: the command names
    planned for an event code, the empty list for any other code. *)
Definition spec_plan (event : Z) : list string :=
  if event =? 65 then ["tripod"; "yes"]
  else if event =? 66 then ["bipod"; "yes"]
  else if event =? 67 then ["rot0"; "no"]
  else if event =? 68 then ["rot+"; "surprise"]
  else if event =? 122 then ["laugh"; "happy"; "excited"]
  else if event =? 32 then ["surprise"; "sad"; "scared"]
  else if event =? 120 then ["confident"; "laugh2"]
  else if event =? 105 then ["angry"; "alarm"]
  else if event =? 111 then ["chatty"; "ionblast"]
  else [].

(** The event codes that have a row in the table. *)
Definition mapped_codes : list Z := [65; 66; 67; 68; 122; 32; 120; 105; 111].

(** The command names that occur in the rows of the table. *)
Definition table_names : list string :=
  [ "tripod"; "yes"; "bipod"; "rot0"; "no"; "rot+"; "surprise"; "laugh";
    "happy"; "excited"; "sad"; "scared"; "confident"; "laugh2"; "angry";
    "alarm"; "chatty"; "ionblast" ].

Section Main.

(** The connected device and its [char_write_handle(handle, value,
    wait_for_response)]; [None] is a write that raises. *)
Context {device : Type}.
Variable char_write_handle : Z -> list Z -> bool -> device -> option device.

(** The mutable state of the loop: the list [sequences] and the device
    behind [r2d2]. *)
Record state : Type := State {
  sequences : list (list Z);
  r2d2 : device
}.

Definition M (A : Type) : Type := state -> result (A * state).

Definition ret {A : Type} (a : A) : M A := fun st => Ok (a, st).

Definition bind {A B : Type} (m : M A) (k : A -> M B) : M B :=
  fun st =>
    match m st with
    | Ok (a, st') => k a st'
    | Raise e => Raise e
    end.

Local Notation "x <- m ;; k" := (bind m (fun x => k))
  (at level 100, m at next level, right associativity).
Local Notation "m ;;; k" := (bind m (fun _ => k))
  (at level 100, right associativity).

(** [sequences.append(commandmap[name])] *)
Definition sequences_append (name : string) : M unit :=
  fun st =>
    match commandmap !! name with
    | Some payload =>
        Ok (tt, State (sequences st ++ [payload]) (r2d2 st))
    | None => Raise (KeyError name)
    end.

(** [r2d2.char_write_handle(0x1c, BuildPacket(seq), True)] *)
Definition write_packet (seq : list Z) : M unit :=
  fun st =>
    match char_write_handle 0x1c (BuildPacket seq) true (r2d2 st) with
    | Some d => Ok (tt, State (sequences st) d)
    | None => Raise WriteError
    end.

(** [for seq in seqs: body(seq)] *)
Fixpoint for_each {A : Type} (seqs : list A) (body : A -> M unit) : M unit :=
  match seqs with
  | [] => ret tt
  | seq :: rest => body seq ;;; for_each rest body
  end.

(** [del sequences[:]] *)
Definition del_sequences : M unit :=
  fun st => Ok (tt, State [] (r2d2 st)).

(** Lines 133-166: [valid_command] starts as [True]; the [if]/[elif]
    chain fills [sequences], its [else] sets [valid_command] to [False].
    The value returned is [valid_command] after the chain. *)
Definition dispatch (scancode : Z) : M bool :=
  let valid_command := true in
  if scancode =? 65 then
    sequences_append "tripod" ;;; sequences_append "yes" ;;;
    ret valid_command
  else if scancode =? 66 then
    sequences_append "bipod" ;;; sequences_append "yes" ;;;
    ret valid_command
  else if scancode =? 67 then
    sequences_append "rot0" ;;; sequences_append "no" ;;;
    ret valid_command
  else if scancode =? 68 then
    sequences_append "rot+" ;;; sequences_append "surprise" ;;;
    ret valid_command
  else if scancode =? 122 then
    sequences_append "laugh" ;;; sequences_append "happy" ;;;
    sequences_append "excited" ;;;
    ret valid_command
  else if scancode =? 32 then
    sequences_append "surprise" ;;; sequences_append "sad" ;;;
    sequences_append "scared" ;;;
    ret valid_command
  else if scancode =? 120 then
    sequences_append "confident" ;;; sequences_append "laugh2" ;;;
    ret valid_command
  else if scancode =? 105 then
    sequences_append "angry" ;;; sequences_append "alarm" ;;;
    ret valid_command
  else if scancode =? 111 then
    sequences_append "chatty" ;;; sequences_append "ionblast" ;;;
    ret valid_command
  else
    ret false.

(** Lines 168-172: the frames are written only for a valid command; the
    list iterated is [sequences] as it stands when the loop starts. *)
Definition execute (valid_command : bool) : M unit :=
  if valid_command
  then fun st => for_each (sequences st) write_packet st
  else ret tt.

(** One iteration of the [while] loop, once the scancode is read. *)
Definition loop_body (scancode : Z) : M unit :=
  valid_command <- dispatch scancode ;;
  execute valid_command ;;;
  del_sequences.

(** The [while] loop over the scancodes read from the pad, in order.
    [pexit] is never set, so the loop only ends by an exception. *)
Definition control_loop (scancodes : list Z) : M unit :=
  for_each scancodes loop_body.

(** [main] from line 119 on, given the device that [r2d2_init]
    connected: [sequences] starts empty. *)
Definition main (scancodes : list Z) (connected : device)
  : result (unit * state) :=
  control_loop scancodes (State [] connected).

(** The frames of a list of payloads written to the device one after
    the other, the first payload first. *)
Fixpoint write_frames (payloads : list (list Z)) (d : device) : option device :=
  match payloads with
  | [] => Some d
  | p :: rest =>
      match char_write_handle 0x1c (BuildPacket p) true d with
      | Some d' => write_frames rest d'
      | None => None
      end
  end.

End Main.

Arguments State {device} sequences r2d2.
Arguments sequences {device} s.
Arguments r2d2 {device} s.

(** A device that accepts every write and keeps the log of the calls:
    handle, value and the [wait_for_response] flag, oldest first. *)
Definition write_log : Type := list (Z * list Z * bool).

Definition log_write (handle : Z) (value : list Z) (wait : bool)
  (log : write_log) : option write_log :=
  Some (log ++ [(handle, value, wait)]).

(** The payloads stored in the dictionary for a list of names; a name
    that is not a key contributes nothing. *)
Definition payloads_of (names : list string) : list (list Z) :=
  omap (fun name => commandmap !! name) names.

(** The log entries of the frames of a list of payloads. *)
Definition frame_writes (payloads : list (list Z)) : write_log :=
  map (fun p => (0x1c, BuildPacket p, true)) payloads.

(** ** Connection set-up, [r2d2_init] (lines 98-111) *)

Section Init.

(** The device is the one [adapter.connect] returned; the three writes
    follow in the order of the source, and a write that raises ends the
    function. *)
Context {device : Type}.
Variable char_write_handle : Z -> list Z -> bool -> device -> option device.

Definition r2d2_init (connected : device) : result device :=
  match char_write_handle 0x15
          [0x75;0x73;0x65;0x74;0x68;0x65;0x66;0x6F;0x72;0x63;0x65;0x2E;0x2E;0x2E;
           0x62;0x61;0x6E;0x64] true connected with
  | None => Raise WriteError
  | Some device1 =>
      match char_write_handle 0x1c [0x8D;0x0A;0x13;0x0D;0x00;0xD5;0xD8] true device1 with
      | None => Raise WriteError
      | Some device2 =>
          match char_write_handle 0x1c
                  [0x8D;0x0A;0x1A;0x0E;0x1C;0x00;0x80;0xFF;0x32;0xD8] true device2 with
          | None => Raise WriteError
          | Some device3 => Ok device3
          end
      end
  end.

(** [main] from its first line: the connection is set up, then the
    control loop runs on the device that [r2d2_init] returned. *)
Definition main_with_init (scancodes : list Z) (connected : device)
  : result (unit * state) :=
  match r2d2_init connected with
  | Ok r2d2 => main char_write_handle scancodes r2d2
  | Raise e => Raise e
  end.

End Init.

(** The ASCII codes of the characters of a string. *)
Definition ascii_codes (s : string) : list Z :=
  map (fun a => Z.of_N (Ascii.N_of_ascii a)) (String.list_ascii_of_string s).

(** A device that accepts a given number of writes and fails on the next
    one; its state is the number of writes it still accepts. *)
Definition budget_write (handle : Z) (value : list Z) (wait : bool)
  (budget : nat) : option nat :=
  match budget with
  | O => None
  | S budget' => Some budget'
  end.

(** * Properties *)

(** Replaces every lookup of a literal name in [commandmap] by the value
    stored under it. *)
Ltac resolve_names :=
  repeat match goal with
         | |- context [commandmap !! ?name] =>
             let v := eval vm_compute in (commandmap !! name) in
             let H := fresh in
             assert (commandmap !! name = v) as H by (vm_compute; reflexivity);
             rewrite H; clear H
         end.

(** Case analysis along a chain of tests [c =? k]: [tac] closes the case
    of each constant, the goal left is the one of the final [else]. *)
Ltac by_scancode c tac :=
  repeat match goal with
         | |- context [c =? ?k] =>
             destruct (Z.eqb_spec c k) as [->|?]; [tac|]
         end.

(** ** The checksum *)

Section Checksum.

Implicit Types (P : list Z) (a b : Z).

Lemma byte_sum_app P P' : byte_sum (P ++ P') = byte_sum P + byte_sum P'.
Proof.
  unfold byte_sum. induction P as [|b P IH]; cbn [app fold_right]; lia.
Qed.

Lemma byte_sum_perm P P' : Permutation P P' -> byte_sum P = byte_sum P'.
Proof.
  unfold byte_sum.
  induction 1 as [|b P P' _ IH|a b P|P P' P'' _ IH1 _ IH2];
    cbn [fold_right]; lia.
Qed.

(** The running accumulator of the loop is the sum so far, reduced. *)
Lemma accumulate_mod P a :
  fold_left (fun ret b => (ret + b) mod 256) P (a mod 256)
  = (a + byte_sum P) mod 256.
Proof.
  revert a. induction P as [|b P IH]; intros a; cbn [fold_left].
  - unfold byte_sum. cbn [fold_right]. by rewrite Z.add_0_r.
  - rewrite IH. change (byte_sum (b :: P)) with (b + byte_sum P).
    rewrite Z.add_assoc. rewrite <- (Zplus_mod_idemp_l (a mod 256 + b)).
    rewrite (Zplus_mod_idemp_l a b). by rewrite Zplus_mod_idemp_l.
Qed.

Lemma GenCrc_lnot_sum P : GenCrc P = Z.lnot (byte_sum P mod 256) mod 256.
Proof.
  unfold GenCrc. change 0 with (0 mod 256) at 1.
  by rewrite accumulate_mod, Z.add_0_l.
Qed.

Lemma lnot_mod_256 a : 0 <= a < 256 -> Z.lnot a mod 256 = 255 - a.
Proof.
  intros Ha. unfold Z.lnot.
  symmetry. apply (Z.mod_unique_pos _ _ (-1)); lia.
Qed.

Lemma GenCrc_255_minus P : GenCrc P = 255 - byte_sum P mod 256.
Proof.
  rewrite GenCrc_lnot_sum. apply lnot_mod_256.
  apply Z.mod_pos_bound. lia.
Qed.

End Checksum.

(** ** Framing *)

Lemma append_each (P acc : list Z) :
  fold_left (fun ret b => ret ++ [b]) P acc = acc ++ P.
Proof.
  revert acc. induction P as [|b P IH]; intros acc; cbn [fold_left].
  - by rewrite app_nil_r.
  - rewrite IH. by rewrite <- app_assoc.
Qed.

Lemma BuildPacket_layout (P : list Z) :
  BuildPacket P = 0x8D :: P ++ [GenCrc P; 0xD8].
Proof.
  unfold BuildPacket. rewrite append_each.
  cbn [app]. by rewrite <- !app_assoc.
Qed.

Lemma BuildPacket_length (P : list Z) :
  length (BuildPacket P) = (length P + 3)%nat.
Proof.
  rewrite BuildPacket_layout. cbn [length]. rewrite length_app. cbn [length]. lia.
Qed.

(** [l[-k]] of a list that ends with a known suffix. *)
Lemma py_index_from_end {A : Type} (l suffix : list A) (k : nat) :
  (0 < k <= length suffix)%nat ->
  py_index (l ++ suffix) (- Z.of_nat k) = suffix !! (length suffix - k)%nat.
Proof.
  intros Hk. unfold py_index.
  rewrite length_app.
  destruct (Z.ltb_spec (- Z.of_nat k) 0) as [_|]; [|lia].
  destruct (Z.leb_spec 0 (Z.of_nat (length l + length suffix) + - Z.of_nat k))
    as [_|]; [|lia].
  replace (Z.to_nat (Z.of_nat (length l + length suffix) + - Z.of_nat k))
    with (length l + (length suffix - k))%nat by lia.
  by rewrite lookup_app_r, Nat.add_comm, Nat.add_sub by lia.
Qed.

Lemma BuildPacket_end_marker (P : list Z) :
  py_index (BuildPacket P) (-1) = Some 0xD8.
Proof.
  rewrite BuildPacket_layout.
  apply (py_index_from_end (0x8D :: P) [GenCrc P; 0xD8] 1). cbn. lia.
Qed.

Lemma BuildPacket_crc_position (P : list Z) :
  py_index (BuildPacket P) (-2) = Some (GenCrc P).
Proof.
  rewrite BuildPacket_layout.
  apply (py_index_from_end (0x8D :: P) [GenCrc P; 0xD8] 2). cbn. lia.
Qed.

(** C1: for every payload [P], [BuildPacket P] is the start marker 0x8D,
    then the bytes of [P] unchanged and in their order, then [GenCrc P],
    then the end marker 0xD8; its length is [len(P) + 3], its element 0
    is 0x8D, its element -1 is 0xD8 and its element -2 is [GenCrc P]. *)
Theorem BuildPacket_frame_shape (P : list Z) :
  BuildPacket P = [0x8D] ++ P ++ [GenCrc P] ++ [0xD8]
  /\ length (BuildPacket P) = (length P + 3)%nat
  /\ py_index (BuildPacket P) 0 = Some 0x8D
  /\ py_index (BuildPacket P) (-1) = Some 0xD8
  /\ py_index (BuildPacket P) (-2) = Some (GenCrc P)
  /\ take (length P) (drop 1 (BuildPacket P)) = P.
Proof.
  split_and!.
  - apply BuildPacket_layout.
  - apply BuildPacket_length.
  - by rewrite BuildPacket_layout.
  - apply BuildPacket_end_marker.
  - apply BuildPacket_crc_position.
  - rewrite BuildPacket_layout. change (drop 1 (0x8D :: P ++ [GenCrc P; 0xD8])) with (P ++ [GenCrc P; 0xD8]). by rewrite take_app_length.
Qed.

(** ** The checksum, as stated *)

(** C2: for every payload (any list of integers, so in particular any
    list of bytes), [GenCrc] returns 255 minus the byte sum modulo 256,
    reduced modulo 256; this is the complement of the modulo-256 sum
    masked to 8 bits; on the empty payload it returns 255. *)
Theorem GenCrc_complement_of_sum (P : list Z) :
  GenCrc P = (255 - byte_sum P mod 256) mod 256
  /\ GenCrc P = Z.land (Z.lnot (byte_sum P mod 256)) 0xFF
  /\ GenCrc [] = 255.
Proof.
  assert (0 <= byte_sum P mod 256 < 256) as Hs by (apply Z.mod_pos_bound; lia).
  split_and!.
  - rewrite GenCrc_255_minus. symmetry. apply Z.mod_small. lia.
  - rewrite GenCrc_lnot_sum. change 0xFF with (Z.ones 8).
    by rewrite Z.land_ones by lia.
  - reflexivity.
Qed.

(** C3, as the code has it: on the payload 0A 17 05 41 00 the byte sum is
    0x67 = 103 and [GenCrc] returns 255 - 103 = 152 = 0x98. *)
Theorem GenCrc_example :
  byte_sum [0x0A; 0x17; 0x05; 0x41; 0x00] = 0x67
  /\ GenCrc [0x0A; 0x17; 0x05; 0x41; 0x00] = 0x98.
Proof. split; reflexivity. Qed.

(** C3, as the specification states it, fails: the value returned for the
    payload 0A 17 05 41 00 is not 0x92. *)
Lemma GenCrc_example_not_0x92 :
  GenCrc [0x0A; 0x17; 0x05; 0x41; 0x00] <> 0x92.
Proof. vm_compute. discriminate. Qed.

(** C9: the value [GenCrc] returns lies between 0 and 255, whatever the
    integers of the list are. *)
Theorem GenCrc_is_byte (P : list Z) : 0 <= GenCrc P <= 255.
Proof.
  rewrite GenCrc_255_minus.
  pose proof (Z.mod_pos_bound (byte_sum P) 256). lia.
Qed.

(** C10: the checksum does not depend on the order of the payload bytes;
    so the frame of a reordered payload carries, as its checksum byte,
    the checksum of the original payload. *)
Theorem GenCrc_permutation (P P' : list Z) :
  Permutation P P' ->
  GenCrc P' = GenCrc P
  /\ BuildPacket P' = [0x8D] ++ P' ++ [GenCrc P] ++ [0xD8]
  /\ py_index (BuildPacket P') (-2) = py_index (BuildPacket P) (-2).
Proof.
  intros HP.
  assert (GenCrc P' = GenCrc P) as Heq
    by (by rewrite !GenCrc_255_minus, (byte_sum_perm P P' HP)).
  split_and!; [done| |].
  - rewrite <- Heq. apply BuildPacket_layout.
  - by rewrite !BuildPacket_crc_position, Heq.
Qed.

(** Two different payloads with the same bytes, and the frames that carry
    the same checksum byte. *)
Lemma GenCrc_permutation_witness :
  [0x17; 0x0A] <> [0x0A; 0x17]
  /\ Permutation [0x0A; 0x17] [0x17; 0x0A]
  /\ GenCrc [0x17; 0x0A] = GenCrc [0x0A; 0x17]
  /\ BuildPacket [0x17; 0x0A] = [0x8D] ++ [0x17; 0x0A] ++ [GenCrc [0x0A; 0x17]] ++ [0xD8]
  /\ py_index (BuildPacket [0x17; 0x0A]) (-2) = py_index (BuildPacket [0x0A; 0x17]) (-2).
Proof.
  split; [discriminate|].
  split; [apply perm_swap|].
  apply (GenCrc_permutation [0x0A; 0x17] [0x17; 0x0A]). apply perm_swap.
Defined.

(** ** The dictionary *)

Lemma dict_snoc {V : Type} (items : list (string * V)) (k : string) (v : V) :
  dict (items ++ [(k, v)]) = <[k := v]> (dict items).
Proof. unfold dict. by rewrite fold_left_app. Qed.

(** Whatever a key is bound to was one of the pairs given to [dict]. *)
Lemma dict_lookup_item {V : Type} (items : list (string * V)) (k : string) (v : V) :
  dict items !! k = Some v -> (k, v) ∈ items.
Proof.
  induction items as [|[k' v'] items IH] using rev_ind; intros Hk.
  - unfold dict in Hk. cbn in Hk. by rewrite lookup_empty in Hk.
  - rewrite dict_snoc in Hk. apply elem_of_app.
    destruct (decide (k' = k)) as [->|Hne].
    + rewrite lookup_insert_eq in Hk. injection Hk as ->.
      right. apply list_elem_of_singleton. done.
    + rewrite lookup_insert_ne in Hk by done. left. by apply IH.
Qed.

(** The names of all the rows of the table resolve to their stored
    payloads, one payload per name and in the order of the names. *)
Lemma plan_resolves (c : Z) :
  Forall2 (fun name p => commandmap !! name = Some p /\ (name, p) ∈ commandmap_items)
    (spec_plan c) (payloads_of (spec_plan c)).
Proof.
  unfold spec_plan.
  repeat (destruct (_ =? _); [vm_compute; repeat constructor|]).
  constructor.
Qed.

(** ** The control loop *)

Lemma mapped_codes_plan (c : Z) : c ∉ mapped_codes -> spec_plan c = [].
Proof.
  intros Hc. unfold spec_plan.
  by_scancode c ltac:(exfalso; apply Hc; unfold mapped_codes; set_solver).
  done.
Qed.

Section MainFacts.

Context {device : Type}.

Implicit Types (st : @state device) (d : device) (c : Z).

(** The [if]/[elif] chain never raises: it appends the stored payloads
    of the row of the scancode, and [valid_command] tells whether the
    scancode has a row. *)
Lemma dispatch_spec c st :
  dispatch c st
  = Ok (bool_decide (c ∈ mapped_codes),
        State (sequences st ++ payloads_of (spec_plan c)) (r2d2 st)).
Proof.
  destruct st as [s d]. unfold dispatch, spec_plan.
  by_scancode c
    ltac:(rewrite bool_decide_eq_true_2 by (unfold mapped_codes; set_solver);
          unfold bind, sequences_append, ret, payloads_of;
          cbn [omap list_omap sequences r2d2]; resolve_names;
          cbn [sequences r2d2]; by rewrite <- ?app_assoc).
  rewrite bool_decide_eq_false_2; [cbn; by rewrite app_nil_r|].
  unfold mapped_codes. rewrite !elem_of_cons, elem_of_nil. tauto.
Qed.

Variable w : Z -> list Z -> bool -> device -> option device.

Lemma write_frames_app (l l' : list (list Z)) d :
  write_frames w (l ++ l') d = write_frames w l d ≫= write_frames w l'.
Proof.
  revert d. induction l as [|p l IH]; intros d; cbn; [done|].
  destruct (w _ _ _ d) as [d'|]; [apply IH|done].
Qed.

Lemma for_each_write_packet (l s : list (list Z)) d :
  for_each l (write_packet w) (State s d)
  = match write_frames w l d with
    | Some d' => Ok (tt, State s d')
    | None => Raise WriteError
    end.
Proof.
  revert d. induction l as [|p l IH]; intros d; cbn; [done|].
  unfold bind, write_packet. cbn.
  destruct (w _ _ _ d) as [d'|]; [apply IH|done].
Qed.

(** One iteration: the frames of what [sequences] held and of the row of
    the scancode are written when the scancode has a row, nothing is
    written otherwise; [sequences] is empty afterwards. *)
Lemma loop_body_spec c st :
  loop_body w c st
  = match (if bool_decide (c ∈ mapped_codes)
           then write_frames w (sequences st ++ payloads_of (spec_plan c)) (r2d2 st)
           else Some (r2d2 st)) with
    | Some d' => Ok (tt, State [] d')
    | None => Raise WriteError
    end.
Proof.
  unfold loop_body, bind. rewrite dispatch_spec.
  destruct (bool_decide (c ∈ mapped_codes)); cbn; [|done].
  rewrite for_each_write_packet.
  by destruct (write_frames _ _ _).
Qed.

(** From an empty [sequences], the frames written are those of the row
    of the scancode alone, also when the scancode has no row. *)
Lemma loop_body_fresh c d :
  loop_body w c (State [] d)
  = match write_frames w (payloads_of (spec_plan c)) d with
    | Some d' => Ok (tt, State [] d')
    | None => Raise WriteError
    end.
Proof.
  rewrite loop_body_spec. cbn [sequences r2d2 app].
  case_bool_decide as Hc; [done|].
  by rewrite mapped_codes_plan.
Qed.

Lemma loop_body_empties c st st' :
  loop_body w c st = Ok (tt, st') -> sequences st' = [].
Proof.
  rewrite loop_body_spec.
  destruct (if bool_decide _ then _ else _); [|done].
  by intros [= <-].
Qed.

(** The whole loop, from an empty [sequences]: the frames written are
    the frames of the rows of the scancodes, one scancode after the
    other. *)
Lemma control_loop_spec (codes : list Z) d :
  control_loop w codes (State [] d)
  = match write_frames w (concat (map (fun c => payloads_of (spec_plan c)) codes)) d with
    | Some d' => Ok (tt, State [] d')
    | None => Raise WriteError
    end.
Proof.
  revert d. induction codes as [|c codes IH]; intros d; [done|].
  cbn [control_loop for_each map concat]. unfold bind.
  rewrite loop_body_fresh, write_frames_app.
  destruct (write_frames w (payloads_of (spec_plan c)) d) as [d'|]; [|done].
  apply IH.
Qed.

End MainFacts.

Lemma write_frames_log (l : list (list Z)) (log : write_log) :
  write_frames log_write l log = Some (log ++ frame_writes l).
Proof.
  revert log. induction l as [|p l IH]; intros log; cbn.
  - by rewrite app_nil_r.
  - rewrite IH. by rewrite <- app_assoc.
Qed.

Lemma loop_body_log (c : Z) (log : write_log) :
  loop_body log_write c (State [] log)
  = Ok (tt, State [] (log ++ frame_writes (payloads_of (spec_plan c)))).
Proof. by rewrite loop_body_fresh, write_frames_log. Qed.

Lemma frame_writes_concat (codes : list Z) :
  frame_writes (concat (map (fun c => payloads_of (spec_plan c)) codes))
  = concat (map (fun c => frame_writes (payloads_of (spec_plan c))) codes).
Proof.
  unfold frame_writes.
  induction codes as [|c codes IH]; cbn [map concat]; [done|].
  by rewrite map_app, IH.
Qed.

Lemma main_log (codes : list Z) (log : write_log) :
  main log_write codes log
  = Ok (tt, State []
          (log ++ concat (map (fun c => frame_writes (payloads_of (spec_plan c))) codes))).
Proof.
  unfold main.
  by rewrite control_loop_spec, write_frames_log, frame_writes_concat.
Qed.

(** ** The event table and the frames on the wire *)

(** C4: each of the nine event codes is planned as the row of the table
    says; for each of them the [if]/[elif] chain leaves in [sequences]
    the stored payloads of these names, one per name and in their order,
    and the iteration writes one frame per command to the device in that
    order.  No two entries of the dictionary share a name or a payload,
    so the payloads written identify the names.  The last part is the
    scenario of event 66: the frame of "bipod", then the frame of "yes". *)
Theorem plan_rows_emitted_in_order :
  (spec_plan 65 = ["tripod"; "yes"]
   /\ spec_plan 66 = ["bipod"; "yes"]
   /\ spec_plan 67 = ["rot0"; "no"]
   /\ spec_plan 68 = ["rot+"; "surprise"]
   /\ spec_plan 122 = ["laugh"; "happy"; "excited"]
   /\ spec_plan 32 = ["surprise"; "sad"; "scared"]
   /\ spec_plan 120 = ["confident"; "laugh2"]
   /\ spec_plan 105 = ["angry"; "alarm"]
   /\ spec_plan 111 = ["chatty"; "ionblast"])
  /\ Forall (fun c =>
        Forall2 (fun name p => commandmap !! name = Some p)
          (spec_plan c) (payloads_of (spec_plan c))
        /\ forall log : write_log,
            dispatch c (State [] log)
            = Ok (true, State (payloads_of (spec_plan c)) log)
            /\ loop_body log_write c (State [] log)
               = Ok (tt, State []
                      (log ++ map (fun p => (0x1c, BuildPacket p, true))
                                (payloads_of (spec_plan c)))))
       mapped_codes
  /\ (NoDup (commandmap_items.*1) /\ NoDup (commandmap_items.*2))
  /\ main log_write [66] []
     = Ok (tt, State []
             [ (0x1c, [0x8D; 0x0A; 0x17; 0x0D; 0x1C; 0x02; 0xB3; 0xD8], true);
               (0x1c, [0x8D; 0x0A; 0x17; 0x05; 0x41; 0x00; 0x0F; 0x89; 0xD8], true) ]).
Proof.
  split; [by repeat split|].
  split; [|split; [split; apply (bool_decide_unpack _); by vm_compute|by vm_compute]].
  apply Forall_forall. intros c Hc. split.
  - eapply Forall2_impl; [apply plan_resolves|]. by intros name p [? _].
  - intros log. split; [|apply loop_body_log].
    rewrite dispatch_spec. by rewrite bool_decide_eq_true_2.
Qed.

(** C5: for an event code that has no row, the plan is empty, the chain
    only clears [valid_command], and the iteration returns normally
    without a write: the device is as it was. *)
Theorem unmapped_code_emits_nothing {device : Type}
    (w : Z -> list Z -> bool -> device -> option device)
    (c : Z) (st : @state device) :
  c ∉ mapped_codes ->
  spec_plan c = []
  /\ dispatch c st = Ok (false, st)
  /\ loop_body w c st = Ok (tt, State [] (r2d2 st)).
Proof.
  intros Hc. split_and!.
  - by apply mapped_codes_plan.
  - rewrite dispatch_spec, bool_decide_eq_false_2 by done.
    rewrite mapped_codes_plan by done. destruct st as [s d]. cbn.
    by rewrite app_nil_r.
  - rewrite loop_body_spec. by rewrite bool_decide_eq_false_2.
Qed.

(** Event code 97 has no row; a payload left in [sequences] is not
    written either. *)
Lemma unmapped_code_emits_nothing_witness :
  (97 ∉ mapped_codes)
  /\ spec_plan 97 = []
  /\ dispatch 97 (State [[0x0A]] ([] : write_log)) = Ok (false, State [[0x0A]] [])
  /\ loop_body log_write 97 (State [[0x0A]] []) = Ok (tt, State [] []).
Proof.
  assert (97 ∉ mapped_codes) as H97.
  { unfold mapped_codes. rewrite !elem_of_cons, elem_of_nil. lia. }
  split; [exact H97|].
  exact (unmapped_code_emits_nothing log_write 97 (State [[0x0A]] []) H97).
Defined.

(** C6: whatever the event code, every frame written is [BuildPacket] of
    the payload stored in the dictionary for the planned name, taken as
    it is: start marker, the stored bytes, their checksum, end marker.
    The entries "rot+" and "rot0" already start with 0x8D and end with
    0xD8; they are framed like the others, so their frames carry the
    markers twice. *)
Theorem stored_payloads_framed_verbatim :
  (forall (c : Z) (log : write_log),
     exists payloads : list (list Z),
       Forall2 (fun name p =>
                  commandmap !! name = Some p /\ (name, p) ∈ commandmap_items)
         (spec_plan c) payloads
       /\ loop_body log_write c (State [] log)
          = Ok (tt, State []
                  (log ++ map (fun p => (0x1c, [0x8D] ++ p ++ [GenCrc p] ++ [0xD8], true))
                            payloads)))
  /\ commandmap !! "rot+"
     = Some [0x8D; 0x0A; 0x17; 0x0F; 0x1C; 0x42; 0xB4; 0x00; 0x00; 0xBD; 0xD8]
  /\ commandmap !! "rot0"
     = Some [0x8D; 0x0A; 0x17; 0x0F; 0x1E; 0x00; 0x00; 0x00; 0x00; 0xB1; 0xD8]
  /\ main log_write [68] []
     = Ok (tt, State []
             [ (0x1c, [0x8D; 0x8D; 0x0A; 0x17; 0x0F; 0x1C; 0x42; 0xB4; 0x00; 0x00;
                       0xBD; 0xD8; 0x9B; 0xD8], true);
               (0x1c, [0x8D; 0x0A; 0x17; 0x05; 0x1C; 0x00; 0x18; 0xA5; 0xD8], true) ])
  /\ main log_write [67] []
     = Ok (tt, State []
             [ (0x1c, [0x8D; 0x8D; 0x0A; 0x17; 0x0F; 0x1E; 0x00; 0x00; 0x00; 0x00;
                       0xB1; 0xD8; 0x9B; 0xD8], true);
               (0x1c, [0x8D; 0x0A; 0x17; 0x05; 0x3F; 0x00; 0x10; 0x8A; 0xD8], true) ]).
Proof.
  split; [|by vm_compute].
  intros c log. exists (payloads_of (spec_plan c)). split; [apply plan_resolves|].
  rewrite loop_body_log. unfold frame_writes.
  rewrite (map_ext (fun p => (0x1c, BuildPacket p, true))
             (fun p => (0x1c, [0x8D] ++ p ++ [GenCrc p] ++ [0xD8], true))); [done|].
  intros p. by rewrite BuildPacket_layout.
Qed.

(** C7: every name of the rows of the table is a key of the dictionary,
    bound to a payload that is not empty; the rows use no other name; and
    every payload of the dictionary is a non-empty list of bytes. *)
Theorem catalog_complete :
  Forall (fun name => exists p, commandmap !! name = Some p /\ p <> []) table_names
  /\ (forall c : Z, Forall (fun name => name ∈ table_names) (spec_plan c))
  /\ map_Forall (fun _ p => p <> [] /\ Forall is_byte p) commandmap.
Proof.
  split_and!.
  - unfold table_names.
    repeat (apply Forall_cons; split;
            [eexists; split; [vm_compute; reflexivity|discriminate]|]).
    apply Forall_nil_2.
  - intros c. unfold spec_plan.
    by_scancode c ltac:(apply (bool_decide_unpack _); by vm_compute).
    apply Forall_nil_2.
  - intros name p Hp. apply dict_lookup_item in Hp.
    assert (Forall (fun kv : string * list Z => kv.2 <> [] /\ Forall is_byte kv.2)
              commandmap_items) as Hall.
    { unfold commandmap_items.
      repeat (apply Forall_cons; split;
              [split; [discriminate|];
               repeat (apply Forall_cons; split; [unfold is_byte; lia|]);
               apply Forall_nil_2|]).
      apply Forall_nil_2. }
    by apply (proj1 (Forall_forall _ _) Hall (name, p)).
Qed.

(** C8: an iteration that returns leaves [sequences] empty, whatever
    [sequences] held before and whether or not the scancode has a row, so
    the next iteration writes the frames of its own scancode and nothing
    else; over a whole run, started as [main] starts it, the writes are
    the frames of the first scancode, then those of the second, and so
    on: nothing is written twice and nothing is carried over. *)
Theorem sequences_empty_between_events :
  (forall (device : Type) (w : Z -> list Z -> bool -> device -> option device)
          (c : Z) (st st' : @state device),
     loop_body w c st = Ok (tt, st') ->
     sequences st' = []
     /\ forall c' : Z,
         loop_body w c' st'
         = match write_frames w (payloads_of (spec_plan c')) (r2d2 st') with
           | Some d' => Ok (tt, State [] d')
           | None => Raise WriteError
           end)
  /\ (forall (c : Z) (s : list (list Z)) (log : write_log),
       exists log', loop_body log_write c (State s log) = Ok (tt, State [] log'))
  /\ (forall (codes : list Z) (log : write_log),
       main log_write codes log
       = Ok (tt, State []
               (log ++ concat (map (fun c => frame_writes (payloads_of (spec_plan c)))
                                 codes)))).
Proof.
  split_and!.
  - intros device w c st st' Hst.
    pose proof (loop_body_empties w c st st' Hst) as Hnil.
    split; [done|]. intros c'.
    destruct st' as [s' d']. cbn in Hnil. subst s'. apply loop_body_fresh.
  - intros c s log. rewrite loop_body_spec.
    destruct (bool_decide _); cbn [sequences r2d2]; [|by eexists].
    rewrite write_frames_log. by eexists.
  - apply main_log.
Qed.

(** Scancode 65 met with a stale payload in [sequences]: the iteration
    returns with [sequences] empty, and the next one writes its own
    frames only. *)
Lemma sequences_empty_between_events_witness :
  let st := State [[0x0A]] ([] : write_log) in
  let st' := State []
               [ (0x1c, [0x8D; 0x0A; 0xF5; 0xD8], true);
                 (0x1c, [0x8D; 0x0A; 0x17; 0x0D; 0x1D; 0x01; 0xB3; 0xD8], true);
                 (0x1c, [0x8D; 0x0A; 0x17; 0x05; 0x41; 0x00; 0x0F; 0x89; 0xD8], true) ] in
  loop_body log_write 65 st = Ok (tt, st')
  /\ sequences st' = []
  /\ forall c' : Z,
      loop_body log_write c' st'
      = match write_frames log_write (payloads_of (spec_plan c')) (r2d2 st') with
        | Some d' => Ok (tt, State [] d')
        | None => Raise WriteError
        end.
Proof.
  intros st st'.
  assert (loop_body log_write 65 st = Ok (tt, st')) as Hrun by (by vm_compute).
  split; [exact Hrun|].
  exact (proj1 sequences_empty_between_events _ log_write 65 st st' Hrun).
Defined.

(** * Further properties of the code *)

(** ** The checksum as an integrity check *)

Lemma byte_sum_cons (b : Z) (P : list Z) : byte_sum (b :: P) = b + byte_sum P.
Proof. reflexivity. Qed.

Lemma byte_sum_plus_GenCrc (P : list Z) : (byte_sum P + GenCrc P) mod 256 = 255.
Proof.
  rewrite GenCrc_255_minus.
  pose proof (Z.div_mod (byte_sum P) 256 ltac:(lia)) as Hdm.
  replace (byte_sum P + (255 - byte_sum P mod 256))
    with (255 + (byte_sum P / 256) * 256) by lia.
  by rewrite Z_mod_plus_full.
Qed.

(** X1: a payload followed by its checksum sums to 255 modulo 256, and the
    checksum of the payload extended by its own checksum is 0: this is
    the test a receiver can run on the bytes between the markers. *)
Theorem GenCrc_verifies (P : list Z) :
  (byte_sum P + GenCrc P) mod 256 = 255
  /\ GenCrc (P ++ [GenCrc P]) = 0.
Proof.
  split; [apply byte_sum_plus_GenCrc|].
  rewrite (GenCrc_255_minus (P ++ _)), byte_sum_app, byte_sum_cons.
  change (byte_sum []) with 0.
  by rewrite Z.add_0_r, byte_sum_plus_GenCrc.
Qed.

(** X2: the checksum of two payloads put end to end is obtained from
    their checksums: their sum plus one, modulo 256. *)
Theorem GenCrc_app (P Q : list Z) :
  GenCrc (P ++ Q) = (GenCrc P + GenCrc Q + 1) mod 256.
Proof.
  rewrite !GenCrc_255_minus, byte_sum_app.
  rewrite (Z.add_mod (byte_sum P) (byte_sum Q)) by lia.
  pose proof (Z.mod_pos_bound (byte_sum P) 256 ltac:(lia)) as HP.
  pose proof (Z.mod_pos_bound (byte_sum Q) 256 ltac:(lia)) as HQ.
  set (x := byte_sum P mod 256) in *. set (y := byte_sum Q mod 256) in *.
  destruct (Z_lt_ge_dec (x + y) 256) as [Hlt|Hge].
  - rewrite (Z.mod_small (x + y)) by lia.
    apply (Z.mod_unique_pos _ _ 1); lia.
  - replace ((x + y) mod 256) with (x + y - 256)
      by (apply (Z.mod_unique_pos _ _ 1); lia).
    apply (Z.mod_unique_pos _ _ 0); lia.
Qed.

Lemma GenCrc_is_byte_range (P : list Z) : 0 <= GenCrc P < 256.
Proof.
  rewrite GenCrc_255_minus.
  pose proof (Z.mod_pos_bound (byte_sum P) 256). lia.
Qed.

Lemma GenCrc_eq_iff_sum (P Q : list Z) :
  GenCrc P = GenCrc Q <-> byte_sum P mod 256 = byte_sum Q mod 256.
Proof. rewrite !GenCrc_255_minus. lia. Qed.

Lemma add_mod_cancel (a b b' c : Z) :
  (a + (b + c)) mod 256 = (a + (b' + c)) mod 256 <-> b mod 256 = b' mod 256.
Proof.
  replace (a + (b + c)) with (b + (a + c)) by lia.
  replace (a + (b' + c)) with (b' + (a + c)) by lia.
  split; intros H.
  - assert ((b + (a + c) - (a + c)) mod 256 = (b' + (a + c) - (a + c)) mod 256) as H'
      by (by rewrite Zminus_mod, H, <- Zminus_mod).
    by rewrite !Z.add_simpl_r in H'.
  - by rewrite Zplus_mod, H, <- Zplus_mod.
Qed.

(** X3: replacing one integer of a payload changes the checksum exactly
    when the two integers differ modulo 256; so for bytes, every change
    of a single byte changes the checksum. *)
Theorem GenCrc_single_change (P Q : list Z) (b b' : Z) :
  (GenCrc (P ++ b :: Q) = GenCrc (P ++ b' :: Q) <-> b mod 256 = b' mod 256)
  /\ (is_byte b -> is_byte b' -> b <> b' ->
      GenCrc (P ++ b :: Q) <> GenCrc (P ++ b' :: Q)).
Proof.
  assert (GenCrc (P ++ b :: Q) = GenCrc (P ++ b' :: Q) <-> b mod 256 = b' mod 256)
    as Hiff.
  { rewrite GenCrc_eq_iff_sum, !byte_sum_app, !byte_sum_cons.
    apply add_mod_cancel. }
  split; [exact Hiff|].
  unfold is_byte. intros Hb Hb' Hne Heq. apply Hiff in Heq.
  rewrite !Z.mod_small in Heq by lia. done.
Qed.

(** The byte 0x41 of the payload of "yes" replaced by 0x3F. *)
Lemma GenCrc_single_change_witness :
  is_byte 0x41 /\ is_byte 0x3F /\ 0x41 <> 0x3F
  /\ GenCrc ([0x0A; 0x17; 0x05] ++ 0x41 :: [0x00; 0x0F])
     <> GenCrc ([0x0A; 0x17; 0x05] ++ 0x3F :: [0x00; 0x0F]).
Proof.
  assert (is_byte 0x41) as H1 by (unfold is_byte; lia).
  assert (is_byte 0x3F) as H2 by (unfold is_byte; lia).
  assert (0x41 <> 0x3F) as H3 by lia.
  split_and!; [exact H1|exact H2|exact H3|].
  exact (proj2 (GenCrc_single_change [0x0A; 0x17; 0x05] [0x00; 0x0F] 0x41 0x3F)
           H1 H2 H3).
Defined.

(** ** Frames *)

(** X4: the checksum of a complete frame does not depend on the payload:
    it is 0x9B for every frame [BuildPacket] builds.  Framing a frame
    again therefore always adds the same checksum byte. *)
Theorem GenCrc_of_frame (P : list Z) :
  GenCrc (BuildPacket P) = 0x9B
  /\ BuildPacket (BuildPacket P) = [0x8D] ++ BuildPacket P ++ [0x9B; 0xD8].
Proof.
  assert (GenCrc (BuildPacket P) = 0x9B) as Hcrc.
  { rewrite GenCrc_255_minus, BuildPacket_layout.
    rewrite byte_sum_cons, byte_sum_app, !byte_sum_cons.
    change (byte_sum []) with 0.
    replace (0x8D + (byte_sum P + (GenCrc P + (0xD8 + 0))))
      with ((byte_sum P + GenCrc P) + 357) by lia.
    rewrite Zplus_mod, byte_sum_plus_GenCrc. reflexivity. }
  split; [exact Hcrc|].
  by rewrite (BuildPacket_layout (BuildPacket P)), Hcrc.
Qed.

Lemma BuildPacket_inj (P Q : list Z) : BuildPacket P = BuildPacket Q -> P = Q.
Proof.
  intros Heq. rewrite !BuildPacket_layout in Heq. injection Heq as Heq.
  by apply app_inj_2 in Heq as [? _].
Qed.

(** X5: two different payloads never have the same frame. *)
Theorem BuildPacket_injective (P Q : list Z) :
  P <> Q -> BuildPacket P <> BuildPacket Q.
Proof. intros Hne Heq. by apply Hne, BuildPacket_inj. Qed.

(** The payloads of "yes" and "laugh2" differ in one byte. *)
Lemma BuildPacket_injective_witness :
  [0x0A; 0x17; 0x05; 0x41; 0x00; 0x0F] <> [0x0A; 0x17; 0x05; 0x1B; 0x00; 0x0F]
  /\ BuildPacket [0x0A; 0x17; 0x05; 0x41; 0x00; 0x0F]
     <> BuildPacket [0x0A; 0x17; 0x05; 0x1B; 0x00; 0x0F].
Proof.
  assert ([0x0A; 0x17; 0x05; 0x41; 0x00; 0x0F] <> [0x0A; 0x17; 0x05; 0x1B; 0x00; 0x0F])
    as Hne by discriminate.
  split; [exact Hne|].
  exact (BuildPacket_injective _ _ Hne).
Defined.

Lemma BuildPacket_bytes (P : list Z) :
  Forall is_byte P -> Forall is_byte (BuildPacket P).
Proof.
  intros HP. rewrite BuildPacket_layout.
  apply Forall_cons. split; [unfold is_byte; lia|].
  apply Forall_app. split; [done|].
  repeat (apply Forall_cons; split); [|unfold is_byte; lia|apply Forall_nil_2].
  pose proof (GenCrc_is_byte_range P). unfold is_byte. lia.
Qed.

(** X6: framing a list of bytes gives a list of bytes, three longer than
    the payload; the shortest frame is the one of the empty payload. *)
Theorem BuildPacket_of_bytes (P : list Z) :
  Forall is_byte P ->
  Forall is_byte (BuildPacket P)
  /\ (3 <= length (BuildPacket P))%nat
  /\ BuildPacket [] = [0x8D; 0xFF; 0xD8].
Proof.
  intros HP. split_and!.
  - by apply BuildPacket_bytes.
  - rewrite BuildPacket_length. lia.
  - reflexivity.
Qed.

Lemma BuildPacket_of_bytes_witness :
  Forall is_byte [0x00; 0xFF]
  /\ Forall is_byte (BuildPacket [0x00; 0xFF])
  /\ (3 <= length (BuildPacket [0x00; 0xFF]%Z))%nat
  /\ BuildPacket [] = [0x8D; 0xFF; 0xD8].
Proof.
  assert (Forall is_byte [0x00; 0xFF]) as HP
    by (repeat (apply Forall_cons; split; [unfold is_byte; lia|]); apply Forall_nil_2).
  split; [exact HP|].
  exact (BuildPacket_of_bytes [0x00; 0xFF] HP).
Defined.

(** ** The dictionary, entry by entry *)

Lemma dict_lookup_NoDup {V : Type} (items : list (string * V)) (k : string) (v : V) :
  NoDup (items.*1) -> (dict items !! k = Some v <-> (k, v) ∈ items).
Proof.
  intros Hnd. split; [apply dict_lookup_item|].
  induction items as [|[k' v'] items IH] using rev_ind; intros Hin.
  - by apply elem_of_nil in Hin.
  - rewrite fmap_app in Hnd. apply NoDup_app in Hnd as (Hnd & Hfresh & _).
    rewrite dict_snoc. apply elem_of_app in Hin as [Hin|Hin].
    + rewrite lookup_insert_ne; [by apply IH|].
      intros ->. apply (Hfresh k); [|cbn; left].
      apply list_elem_of_fmap. by exists (k, v).
    + apply list_elem_of_singleton in Hin. injection Hin as -> ->.
      apply lookup_insert_eq.
Qed.

Lemma commandmap_keys_NoDup : NoDup (commandmap_items.*1).
Proof. apply (bool_decide_unpack _). by vm_compute. Qed.

Lemma commandmap_lookup_iff (name : string) (p : list Z) :
  commandmap !! name = Some p <-> (name, p) ∈ commandmap_items.
Proof. apply dict_lookup_NoDup, commandmap_keys_NoDup. Qed.

(** X7: the dictionary binds exactly the nineteen pairs of the table of
    the source: a name is bound to a payload when, and only when, the
    pair is listed; any other name is not a key, and appending its
    payload to [sequences] raises [KeyError]. *)
Theorem commandmap_contents (name : string) (p : list Z) :
  (commandmap !! name = Some p <-> (name, p) ∈ commandmap_items)
  /\ size commandmap = 19%nat
  /\ (name ∉ commandmap_items.*1 ->
      commandmap !! name = None
      /\ forall st : @state write_log, sequences_append name st = Raise (KeyError name)).
Proof.
  split; [apply commandmap_lookup_iff|]. split; [by vm_compute|].
  intros Hname.
  assert (commandmap !! name = None) as Hnone.
  { destruct (commandmap !! name) as [q|] eqn:Hq; [|done].
    exfalso. apply Hname. apply commandmap_lookup_iff in Hq.
    apply list_elem_of_fmap. by exists (name, q). }
  split; [done|]. intros st. unfold sequences_append. by rewrite Hnone.
Qed.

(** "dance" is not a name of the table. *)
Lemma commandmap_contents_witness :
  ("dance" ∉ commandmap_items.*1)
  /\ commandmap !! "dance" = None
  /\ forall st : @state write_log,
      sequences_append "dance" st = Raise (KeyError "dance").
Proof.
  assert ("dance" ∉ commandmap_items.*1) as Hd
    by (apply (bool_decide_unpack _); by vm_compute).
  split; [exact Hd|].
  exact (proj2 (proj2 (commandmap_contents "dance" [])) Hd).
Defined.

(** ** What the control loop writes *)

(** Splits a membership in a literal list into its cases. *)
Ltac cases_of_list H :=
  repeat (apply elem_of_cons in H as [H|H]); [..|by apply elem_of_nil in H].

Lemma payloads_of_items (names : list string) (p : list Z) :
  p ∈ payloads_of names ->
  exists name, name ∈ names /\ (name, p) ∈ commandmap_items.
Proof.
  unfold payloads_of. rewrite list_elem_of_omap.
  intros (name & Hname & Hp). exists name. split; [done|].
  by apply commandmap_lookup_iff.
Qed.

Lemma main_log_entries (codes : list Z) (log : write_log)
    (ok : Z * list Z * bool -> Prop) :
  (forall c p, p ∈ payloads_of (spec_plan c) -> ok (0x1c, BuildPacket p, true)) ->
  exists new,
    main log_write codes log = Ok (tt, State [] (log ++ new)) /\ Forall ok new.
Proof.
  intros Hok. eexists. split; [apply main_log|].
  apply Forall_concat, Forall_fmap, Forall_forall. intros c _.
  unfold frame_writes. apply Forall_fmap, Forall_forall. intros p Hp.
  by apply (Hok c).
Qed.



Lemma not_a_frame (b : Z) (rest : list Z) :
  b <> 0x8D -> ~ exists q, b :: rest = BuildPacket q.
Proof.
  intros Hb [q Hq]. rewrite BuildPacket_layout in Hq.
  injection Hq as Hq _. done.
Qed.

(** X9: the payloads stored under "rot+" and "rot0" are complete frames,
    as [BuildPacket] builds them from eight bytes, and they are the only
    entries of the dictionary that are; the loop frames them once more,
    so what it writes for them is a frame inside a frame. *)
Theorem preframed_entries (name : string) (p : list Z) :
  (commandmap !! name = Some p ->
   ((exists q, p = BuildPacket q) <-> (name = "rot+" \/ name = "rot0")))
  /\ commandmap !! "rot+"
     = Some (BuildPacket [0x0A; 0x17; 0x0F; 0x1C; 0x42; 0xB4; 0x00; 0x00])
  /\ commandmap !! "rot0"
     = Some (BuildPacket [0x0A; 0x17; 0x0F; 0x1E; 0x00; 0x00; 0x00; 0x00])
  /\ (forall log : write_log,
        loop_body log_write 68 (State [] log)
        = Ok (tt, State []
                (log ++ [ (0x1c, BuildPacket (BuildPacket
                                   [0x0A; 0x17; 0x0F; 0x1C; 0x42; 0xB4; 0x00; 0x00]), true);
                          (0x1c, BuildPacket [0x0A; 0x17; 0x05; 0x1C; 0x00; 0x18], true) ]))
        /\ loop_body log_write 67 (State [] log)
           = Ok (tt, State []
                   (log ++ [ (0x1c, BuildPacket (BuildPacket
                                      [0x0A; 0x17; 0x0F; 0x1E; 0x00; 0x00; 0x00; 0x00]), true);
                             (0x1c, BuildPacket [0x0A; 0x17; 0x05; 0x3F; 0x00; 0x10], true) ]))).
Proof.
  split_and!; [|by vm_compute|by vm_compute|].
  - intros Hp. apply commandmap_lookup_iff in Hp.
    unfold commandmap_items in Hp. cases_of_list Hp.
    all: injection Hp as -> ->.
    all: try (split; [intros Hq; by apply not_a_frame in Hq
                     |intros [?|?]; discriminate]).
    + split; [by left|]. intros _.
      by exists [0x0A; 0x17; 0x0F; 0x1C; 0x42; 0xB4; 0x00; 0x00].
    + split; [by right|]. intros _.
      by exists [0x0A; 0x17; 0x0F; 0x1E; 0x00; 0x00; 0x00; 0x00].
  - intros log. rewrite !loop_body_log. split; do 3 f_equal.
Qed.

Lemma preframed_entries_witness :
  commandmap !! "rot0"
  = Some [0x8D; 0x0A; 0x17; 0x0F; 0x1E; 0x00; 0x00; 0x00; 0x00; 0xB1; 0xD8]
  /\ ((exists q, [0x8D; 0x0A; 0x17; 0x0F; 0x1E; 0x00; 0x00; 0x00; 0x00; 0xB1; 0xD8]
                = BuildPacket q)
      <-> ("rot0" = "rot+" \/ "rot0" = "rot0")).
Proof.
  assert (commandmap !! "rot0"
          = Some [0x8D; 0x0A; 0x17; 0x0F; 0x1E; 0x00; 0x00; 0x00; 0x00; 0xB1; 0xD8])
    as Hrot by (by vm_compute).
  split; [exact Hrot|].
  exact (proj1 (preframed_entries "rot0" _) Hrot).
Defined.

Lemma commandmap_items_shape :
  Forall (fun kv : string * list Z =>
            Forall is_byte kv.2 /\ (5 <= length kv.2 <= 11)%nat)
    commandmap_items.
Proof.
  unfold commandmap_items.
  repeat (apply Forall_cons; split;
          [split; [|cbn; lia];
           repeat (apply Forall_cons; split; [unfold is_byte; lia|]);
           apply Forall_nil_2|]).
  apply Forall_nil_2.
Qed.

(** X10: whatever the scancodes read, every write of the control loop
    goes to handle 0x1c with the response awaited, and its value is a
    list of bytes that starts with 0x8D, ends with 0xD8 and is between 8
    and 14 bytes long. *)
Theorem loop_writes_well_formed (codes : list Z) (log : write_log) :
  exists new,
    main log_write codes log = Ok (tt, State [] (log ++ new))
    /\ Forall (fun entry : Z * list Z * bool =>
                 entry.1.1 = 0x1c /\ entry.2 = true
                 /\ Forall is_byte entry.1.2
                 /\ py_index entry.1.2 0 = Some 0x8D
                 /\ py_index entry.1.2 (-1) = Some 0xD8
                 /\ (8 <= length entry.1.2 <= 14)%nat)
         new.
Proof.
  apply main_log_entries. intros c p Hp. cbn [fst snd].
  apply payloads_of_items in Hp as (name & _ & Hitem).
  pose proof (proj1 (Forall_forall _ _) commandmap_items_shape _ Hitem)
    as [Hbytes Hlen]. cbn [snd] in Hbytes, Hlen.
  split_and!; [done|done| | | |..].
  - by apply BuildPacket_bytes.
  - by rewrite BuildPacket_layout.
  - apply BuildPacket_end_marker.
  - rewrite BuildPacket_length. lia.
  - rewrite BuildPacket_length. lia.
Qed.

(** ** Failures of the device *)




(** ** Setting up the connection *)

Lemma r2d2_init_log (log : write_log) :
  r2d2_init log_write log
  = Ok (log ++ [ (0x15, ascii_codes "usetheforce...band", true);
                 (0x1c, BuildPacket [0x0A; 0x13; 0x0D; 0x00], true);
                 (0x1c, BuildPacket [0x0A; 0x1A; 0x0E; 0x1C; 0x00; 0x80; 0xFF], true) ]).
Proof.
  unfold r2d2_init, log_write. rewrite <- !app_assoc. cbn [app].
  do 2 f_equal.
Qed.

Lemma r2d2_init_budget (budget : nat) :
  r2d2_init budget_write budget
  = if (budget <? 3)%nat then Raise WriteError else Ok (budget - 3)%nat.
Proof.
  destruct budget as [|[|[|budget]]]; try reflexivity.
  unfold r2d2_init. cbn [budget_write].
  replace (S (S (S budget)) - 3)%nat with budget by lia. reflexivity.
Qed.

(** X13: [r2d2_init] performs three writes in this order: the ASCII
    codes of "usetheforce...band" to handle 0x15, then to handle 0x1c the
    frame of 0A 13 0D 00 and the frame of 0A 1A 0E 1C 00 80 FF, which are
    the frames [BuildPacket] builds for these payloads; on a device that
    accepts fewer than three writes it raises. *)
Theorem r2d2_init_writes (log : write_log) (budget : nat) :
  r2d2_init log_write log
  = Ok (log ++ [ (0x15, ascii_codes "usetheforce...band", true);
                 (0x1c, BuildPacket [0x0A; 0x13; 0x0D; 0x00], true);
                 (0x1c, BuildPacket [0x0A; 0x1A; 0x0E; 0x1C; 0x00; 0x80; 0xFF], true) ])
  /\ r2d2_init budget_write budget
     = if (budget <? 3)%nat then Raise WriteError else Ok (budget - 3)%nat.
Proof. split; [apply r2d2_init_log|apply r2d2_init_budget]. Qed.

(** ** The whole run *)

Lemma write_frames_budget (l : list (list Z)) (budget : nat) :
  write_frames budget_write l budget
  = if (budget <? length l)%nat then None else Some (budget - length l)%nat.
Proof.
  revert budget. induction l as [|p l IH]; intros budget; cbn [write_frames length].
  - by rewrite Nat.sub_0_r.
  - destruct budget as [|budget]; cbn [budget_write]; [done|].
    rewrite IH. reflexivity.
Qed.

Lemma planned_payloads_length (codes : list Z) :
  length (concat (map (fun c => payloads_of (spec_plan c)) codes))
  = length (concat (map spec_plan codes)).
Proof.
  induction codes as [|c codes IH]; cbn [map concat]; [done|].
  rewrite !length_app, IH.
  by rewrite <- (Forall2_length _ _ _ (plan_resolves c)).
Qed.

(** X14: a whole run, from the set-up of the connection on.  The device
    receives the three writes of the set-up, then the frames of the
    scancodes in the order read, and nothing else; the number of writes
    is three plus the number of commands planned, and on a device that
    accepts fewer writes the run raises. *)
Theorem main_with_init_writes (codes : list Z) (log : write_log) (budget : nat) :
  main_with_init log_write codes log
  = Ok (tt, State []
          (log ++ [ (0x15, ascii_codes "usetheforce...band", true);
                    (0x1c, BuildPacket [0x0A; 0x13; 0x0D; 0x00], true);
                    (0x1c, BuildPacket [0x0A; 0x1A; 0x0E; 0x1C; 0x00; 0x80; 0xFF], true) ]
               ++ concat (map (fun c => frame_writes (payloads_of (spec_plan c))) codes)))
  /\ main_with_init budget_write codes budget
     = if (budget <? 3 + length (concat (map spec_plan codes)))%nat
       then Raise WriteError
       else Ok (tt, State [] (budget - (3 + length (concat (map spec_plan codes))))%nat).
Proof.
  split.
  - unfold main_with_init. rewrite r2d2_init_log, main_log.
    by rewrite <- app_assoc.
  - unfold main_with_init, main. rewrite r2d2_init_budget.
    destruct (Nat.ltb_spec budget 3) as [Hlt|Hge].
    + by rewrite (proj2 (Nat.ltb_lt _ _)) by lia.
    + rewrite control_loop_spec, write_frames_budget, planned_payloads_length.
      set (n := length (concat (map spec_plan codes))).
      destruct (Nat.ltb_spec (budget - 3) n) as [Hlt'|Hge'].
      * by rewrite (proj2 (Nat.ltb_lt _ _)) by lia.
      * rewrite (proj2 (Nat.ltb_ge _ _)) by lia.
        by replace (budget - 3 - n)%nat with (budget - (3 + n))%nat by lia.
Qed.

(** ** Telling the events apart *)

Lemma frame_writes_inj (l l' : list (list Z)) :
  frame_writes l = frame_writes l' -> l = l'.
Proof.
  revert l'. induction l as [|p l IH]; intros [|p' l'] Heq; try done.
  cbn in Heq. injection Heq as Hp Htl.
  apply BuildPacket_inj in Hp. f_equal; [done|by apply IH].
Qed.

(** X15: two different event codes of the table never cause the same
    writes: from the same state of the device, the logs they leave
    differ. *)
Theorem mapped_codes_distinct_writes (c c' : Z) (log : write_log) :
  c ∈ mapped_codes -> c' ∈ mapped_codes -> c <> c' ->
  loop_body log_write c (State [] log) <> loop_body log_write c' (State [] log).
Proof.
  intros Hc Hc' Hne Heq. rewrite !loop_body_log in Heq.
  injection Heq as Heq. apply app_inv_head, frame_writes_inj in Heq.
  unfold mapped_codes in Hc, Hc'.
  cases_of_list Hc; cases_of_list Hc'; subst c c'; try done;
    vm_compute in Heq; discriminate.
Qed.

(** Up (65) and Down (66) share their second command only. *)
Lemma mapped_codes_distinct_writes_witness :
  65 ∈ mapped_codes /\ 66 ∈ mapped_codes /\ 65 <> 66
  /\ loop_body log_write 65 (State [] []) <> loop_body log_write 66 (State [] []).
Proof.
  assert (65 ∈ mapped_codes) as H65 by (apply (bool_decide_unpack _); by vm_compute).
  assert (66 ∈ mapped_codes) as H66 by (apply (bool_decide_unpack _); by vm_compute).
  assert (65 <> 66) as Hne by lia.
  split_and!; [exact H65|exact H66|exact Hne|].
  exact (mapped_codes_distinct_writes 65 66 [] H65 H66 Hne).
Defined.
